(** * A shallow embedding of the ClaimCompass client controller
    (frontend/script.js): input handlers, form submission, the analysis
    request, the four result cards and the text report download.

    The DOM is modelled as an explicit state record; every handler of the
    script becomes a function [State -> State].  The single suspension point
    of [analyzeImage] (the awaited [fetch]) splits it in two: the part before
    the request ([analyzeImage_start], which records the POST in an effect
    log) and the part after it ([analyzeImage_finish], given the outcome of
    the request).  Effects the page has on the outside world (POST requests,
    file downloads) are appended to [log]. *)

From Stdlib Require Import String Ascii List Bool Lia.
Import ListNotations.
Open Scope string_scope.

(** ** JavaScript values and strings *)

(** The JSON scalar values a response field can hold, [JUndefined] standing
    for a field absent from the body. *)
Inductive jsval : Type :=
| JUndefined
| JNull
| JBool (b : bool)
| JStr (s : string).

(** JavaScript truthiness, as used by [||] and [if (x)]. *)
Definition truthy (v : jsval) : bool :=
  match v with
  | JUndefined | JNull => false
  | JBool b => b
  | JStr s => negb (String.eqb s "")
  end.

(** [String(v)], the conversion done by [textContent = v], by a template
    literal [${v}] and by [new Error(v)]. *)
Definition to_string (v : jsval) : string :=
  match v with
  | JUndefined => "undefined"
  | JNull => "null"
  | JBool true => "true"
  | JBool false => "false"
  | JStr s => s
  end.

(** [String(v || d)] for a string default [d]. *)
Definition or_default (v : jsval) (d : string) : string :=
  if truthy v then to_string v else d.

(** [String.prototype.startsWith]. *)
Definition startsWith (s pre : string) : bool := String.prefix pre s.

(** [String.prototype.includes]. *)
Fixpoint includes (s sub : string) : bool :=
  String.prefix sub s ||
  match s with
  | EmptyString => false
  | String _ rest => includes rest sub
  end.

(** The white space removed by [String.prototype.trim], on ASCII: tab,
    line feed, vertical tab, form feed, carriage return and space. *)
Definition is_ws (c : ascii) : bool :=
  match nat_of_ascii c with
  | 9 | 10 | 11 | 12 | 13 | 32 => true
  | _ => false
  end.

Fixpoint trimStart (s : string) : string :=
  match s with
  | EmptyString => EmptyString
  | String c rest => if is_ws c then trimStart rest else s
  end.

Fixpoint trimEnd (s : string) : string :=
  match s with
  | EmptyString => EmptyString
  | String c rest =>
      let r := trimEnd rest in
      if is_ws c && String.eqb r "" then EmptyString else String c r
  end.

Definition trim (s : string) : string := trimEnd (trimStart s).

(** ** Data model *)

(** A [File] object: only its name and MIME type matter to the script. *)
Record File : Type := mkFile { file_name : string; file_type : string }.

(** The parsed JSON body of a response of [/api/analyze]. *)
Record Body : Type := mkBody {
  success : jsval;
  make : jsval;
  model : jsval;
  color : jsval;
  damage_summary : jsval;
  repair_cost_estimate : jsval;
  error : jsval;
  detail : jsval
}.

(** What [await response.json()] gives: a body, or the exception thrown
    when the body is not JSON. *)
Inductive parsed : Type :=
| PJson (b : Body)
| PNotJson (exn_message : string).

(** The outcome of [await fetch(API_ENDPOINT, ...)]: a rejected promise
    (transport failure) or a response with its [ok] flag and body. *)
Inductive fetch_outcome : Type :=
| FetchFailed (exn_message : string)
| FetchResponse (ok : bool) (body : parsed).

(** Observable effects on the outside world. *)
Inductive effect : Type :=
| Post (file : option File) (image_url : option string)
| Download (filename : string) (text : string).

(** Display of the four cards ([style.display !== 'none']). *)
Record Cards : Type := mkCards {
  welcomeCard : bool;
  loadingCard : bool;
  resultsCard : bool;
  errorCard : bool
}.

(** The two inputs and their previews.  [selected] is [fileInput.files[0]];
    [readerPending] counts the [FileReader] loads started by [previewFile]
    whose [onload] has not run yet. *)
Record Inputs : Type := mkInputs {
  selected : option File;
  urlValue : string;
  filePreview : bool;
  urlPreview : bool;
  readerPending : nat
}.

(** The [textContent] of the result and error elements. *)
Record Texts : Type := mkTexts {
  carMake : string;
  carModel : string;
  carColor : string;
  damageSummary : string;
  repairCost : string;
  errorMessage : string
}.

Record State : Type := mkState {
  cards : Cards;
  btnDisabled : bool;
  btnLabel : string;
  inputs : Inputs;
  texts : Texts;
  currentAnalysisData : option Body;
  log : list effect
}.

Definition set_cards (c : Cards) (s : State) : State :=
  mkState c (btnDisabled s) (btnLabel s) (inputs s) (texts s)
    (currentAnalysisData s) (log s).
Definition set_button (d : bool) (l : string) (s : State) : State :=
  mkState (cards s) d l (inputs s) (texts s) (currentAnalysisData s) (log s).
Definition set_inputs (i : Inputs) (s : State) : State :=
  mkState (cards s) (btnDisabled s) (btnLabel s) i (texts s)
    (currentAnalysisData s) (log s).
Definition set_texts (t : Texts) (s : State) : State :=
  mkState (cards s) (btnDisabled s) (btnLabel s) (inputs s) t
    (currentAnalysisData s) (log s).
Definition set_current (d : option Body) (s : State) : State :=
  mkState (cards s) (btnDisabled s) (btnLabel s) (inputs s) (texts s) d (log s).
Definition emit (e : effect) (s : State) : State :=
  mkState (cards s) (btnDisabled s) (btnLabel s) (inputs s) (texts s)
    (currentAnalysisData s) (log s ++ [e])%list.

(** ** The handlers of script.js *)

Definition idle_label : string := "Analyze Damage".

(** [showLoading]: hides welcome, results and error, shows loading and
    disables the button. *)
Definition showLoading (s : State) : State :=
  set_button true "Analyzing..." (set_cards (mkCards false true false false) s).

(** [hideLoading]: hides loading and re-enables the button. *)
Definition hideLoading (s : State) : State :=
  let c := cards s in
  set_button false idle_label
    (set_cards (mkCards (welcomeCard c) false (resultsCard c) (errorCard c)) s).

(** [showResults(data)]: fills the five result fields with their defaults,
    hides welcome and error and shows results; the loading card is left as
    it is. *)
Definition showResults (data : Body) (s : State) : State :=
  let t := texts s in
  let c := cards s in
  set_cards (mkCards false (loadingCard c) true false)
    (set_texts
       (mkTexts (or_default (make data) "Unknown")
                (or_default (model data) "Unknown")
                (or_default (color data) "Unknown")
                (or_default (damage_summary data) "No damage assessment available")
                (or_default (repair_cost_estimate data) "Unable to estimate")
                (errorMessage t)) s).

(** [showError(message)]: sets the message, hides welcome and results,
    shows error, then calls [hideLoading]. *)
Definition showError (message : string) (s : State) : State :=
  let t := texts s in
  let c := cards s in
  hideLoading
    (set_cards (mkCards false (loadingCard c) false true)
       (set_texts (mkTexts (carMake t) (carModel t) (carColor t)
                           (damageSummary t) (repairCost t) message) s)).

(** [clearFile]: [fileInput.value = ''] empties [fileInput.files]. *)
Definition clearFile (s : State) : State :=
  let i := inputs s in
  set_inputs (mkInputs None (urlValue i) false (urlPreview i) (readerPending i)) s.

Definition clearUrl (s : State) : State :=
  let i := inputs s in
  set_inputs (mkInputs (selected i) "" (filePreview i) false (readerPending i)) s.

(** [previewFile(file)]: a non-image file is reported; an image starts a
    [FileReader] read whose [onload] shows the preview later. *)
Definition previewFile (file : File) (s : State) : State :=
  if negb (startsWith (file_type file) "image/") then
    showError "Please select an image file" s
  else
    let i := inputs s in
    set_inputs (mkInputs (selected i) (urlValue i) (filePreview i)
                         (urlPreview i) (S (readerPending i))) s.

(** The [onload] of a pending [FileReader]: shows the file preview. *)
Definition readerOnload (s : State) : State :=
  let i := inputs s in
  match readerPending i with
  | O => s
  | S n => set_inputs (mkInputs (selected i) (urlValue i) true (urlPreview i) n) s
  end.

(** The browser sets [fileInput.files] to the chosen files, then fires
    [change], handled by [handleFileSelect]. *)
Definition handleFileSelect (files : list File) (s : State) : State :=
  let i := inputs s in
  let s := set_inputs (mkInputs (hd_error files) (urlValue i) (filePreview i)
                                (urlPreview i) (readerPending i)) s in
  match hd_error files with
  | Some file => previewFile file (clearUrl s)
  | None => s
  end.

(** [handleDrop]: only an image file is stored into [fileInput.files]. *)
Definition handleDrop (files : list File) (s : State) : State :=
  match files with
  | [] => s
  | file :: _ =>
      if startsWith (file_type file) "image/" then
        let i := inputs s in
        let s := set_inputs (mkInputs (Some file) (urlValue i) (filePreview i)
                                      (urlPreview i) (readerPending i)) s in
        previewFile file (clearUrl s)
      else showError "Please drop an image file" s
  end.

(** Typing into the URL input sets its value, then fires [input], handled
    by [clearFileWhenUrlEntered]. *)
Definition clearFileWhenUrlEntered (s : State) : State :=
  if negb (String.eqb (trim (urlValue (inputs s))) "") then clearFile s else s.

Definition handleUrlInput (v : string) (s : State) : State :=
  let i := inputs s in
  clearFileWhenUrlEntered
    (set_inputs (mkInputs (selected i) v (filePreview i) (urlPreview i)
                          (readerPending i)) s).

(** The part of [analyzeImage(file, url)] before [await fetch]: the loading
    view, then the POST with a [file] and/or an [image_url] field. *)
Definition analyzeImage_start (file : option File) (url : string) (s : State)
  : State :=
  emit (Post file (if String.eqb url "" then None else Some url)) (showLoading s).

(** The result of the [try] block after the request: the data stored on
    success ([inl]) or the message of the [Error] thrown ([inr]). *)
Definition attempt (o : fetch_outcome) : Body + string :=
  match o with
  | FetchFailed m => inr m
  | FetchResponse false (PJson errorData) =>
      inr (or_default (detail errorData) "Analysis failed")
  | FetchResponse _ (PNotJson m) => inr m
  | FetchResponse true (PJson data) =>
      if truthy (success data) then inl data
      else inr (or_default (error data) "Analysis failed")
  end.

Definition connection_message : string :=
  "Unable to connect to the analysis service. Please check if the backend server is running.".

(** The part of [analyzeImage] after [await fetch]: the success branch, the
    [catch] block and the [finally] block. *)
Definition analyzeImage_finish (o : fetch_outcome) (s : State) : State :=
  hideLoading
    (match attempt o with
     | inl data => showResults data (set_current (Some data) s)
     | inr message =>
         if includes message "fetch" then showError connection_message s
         else if String.eqb message "" then
           showError "Failed to analyze image. Please try again." s
         else showError message s
     end).

(** [handleFormSubmit] up to the request: the validation of the inputs,
    then [analyzeImage] started with [fileInput.files[0]] and the trimmed
    URL. *)
Definition handleFormSubmit (s : State) : State :=
  let file := selected (inputs s) in
  let url := trim (urlValue (inputs s)) in
  match file, String.eqb url "" with
  | None, true => showError "Please upload an image file or enter an image URL" s
  | Some _, false => showError "Please provide either a file or URL, not both" s
  | _, _ => analyzeImage_start file url s
  end.

Definition resetForm (s : State) : State :=
  let s := clearUrl (clearFile s) in
  let s := set_current None s in
  let c := cards s in
  set_button false idle_label (set_cards (mkCards true (loadingCard c) false false) s).

(** [downloadReport]: the report is the template literal of the source,
    [.trim()]med.  [generated] is [new Date().toLocaleString()] and [iso] is
    [new Date().toISOString()] at the time of the call. *)
Definition analysis_method : string := "AI-powered analysis using OpenAI GPT-4o".

Definition disclaimer : string :=
  "This is an automated assessment for estimation purposes only. Professional inspection is recommended for accurate damage evaluation.".

Definition reportTemplate (generated : string) (d : Body) : string :=
  "
CLAIMCOMPASS DAMAGE ANALYSIS REPORT
Generated: " ++ generated ++ "

VEHICLE INFORMATION:
Make: " ++ to_string (make d) ++ "
Model: " ++ to_string (model d) ++ "
Color: " ++ to_string (color d) ++ "

DAMAGE ASSESSMENT:
" ++ to_string (damage_summary d) ++ "

ESTIMATED REPAIR COST:
" ++ to_string (repair_cost_estimate d) ++ "

ANALYSIS METHOD:
" ++ analysis_method ++ "

DISCLAIMER:
" ++ disclaimer ++ "

---
Report generated by ClaimCompass
AI-Powered Insurance Technology Demo
    ".

Definition reportText (generated : string) (d : Body) : string :=
  trim (reportTemplate generated d).

(** [.replace(/:/g, '-')]. *)
Fixpoint replace_colons (s : string) : string :=
  match s with
  | EmptyString => EmptyString
  | String c rest =>
      String (if Ascii.eqb c ":"%char then "-"%char else c) (replace_colons rest)
  end.

Definition reportFilename (iso : string) : string :=
  "ClaimCompass_Report_" ++ replace_colons (substring 0 19 iso) ++ ".txt".

Definition downloadReport (generated iso : string) (s : State) : State :=
  match currentAnalysisData s with
  | None => showError "No analysis data available to download" s
  | Some d => emit (Download (reportFilename iso) (reportText generated d)) s
  end.

(** ** Events of the page *)

Inductive event : Type :=
| FileChange (files : list File)        (* [change] on the file input *)
| DropFiles (files : list File)         (* [drop] on the upload area *)
| UrlInput (v : string)                 (* [input] on the URL field *)
| ReaderLoad                            (* a [FileReader] [onload] *)
| Submit                                (* [submit] of the form *)
| FetchDone (o : fetch_outcome)         (* an awaited request settles *)
| Reset                                 (* [resetForm()] *)
| DownloadClick (generated iso : string) (* [downloadReport()] *)
| Offline.                              (* [offline] on the window *)

Definition step (e : event) (s : State) : State :=
  match e with
  | FileChange files => handleFileSelect files s
  | DropFiles files => handleDrop files s
  | UrlInput v => handleUrlInput v s
  | ReaderLoad => readerOnload s
  | Submit => handleFormSubmit s
  | FetchDone o => analyzeImage_finish o s
  | Reset => resetForm s
  | DownloadClick generated iso => downloadReport generated iso s
  | Offline => showError "No internet connection. Please check your network and try again." s
  end.

Definition run (es : list event) (s : State) : State :=
  fold_left (fun s e => step e s) es s.

(** The page as loaded: the welcome card shown, nothing selected. *)
Definition initial : State :=
  mkState (mkCards true false false false) false idle_label
    (mkInputs None "" false false 0) (mkTexts "" "" "" "" "" "") None [].


Example report_test :
  reportText "d" (mkBody (JBool true) (JStr "Honda") (JStr "Civic") JUndefined
                         (JStr "dent") (JStr "$500") JUndefined JUndefined)
  = "CLAIMCOMPASS DAMAGE ANALYSIS REPORT
Generated: d

VEHICLE INFORMATION:
Make: Honda
Model: Civic
Color: undefined

DAMAGE ASSESSMENT:
dent

ESTIMATED REPAIR COST:
$500

ANALYSIS METHOD:
AI-powered analysis using OpenAI GPT-4o

DISCLAIMER:
" ++ disclaimer ++ "

---
Report generated by ClaimCompass
AI-Powered Insurance Technology Demo".
Proof. vm_compute. reflexivity. Qed.

Example filename_test :
  reportFilename "2026-10-19T12:34:56.789Z" = "ClaimCompass_Report_2026-10-19T12-34-56.txt".
Proof. reflexivity. Qed.

(** ** Facts about the handlers *)

Lemma log_hideLoading : forall s, log (hideLoading s) = log s.
Proof. reflexivity. Qed.
Lemma log_showError : forall m s, log (showError m s) = log s.
Proof. reflexivity. Qed.
Lemma log_showResults : forall d s, log (showResults d s) = log s.
Proof. reflexivity. Qed.
Lemma inputs_hideLoading : forall s, inputs (hideLoading s) = inputs s.
Proof. reflexivity. Qed.
Lemma inputs_showError : forall m s, inputs (showError m s) = inputs s.
Proof. reflexivity. Qed.
Lemma inputs_showResults : forall d s, inputs (showResults d s) = inputs s.
Proof. reflexivity. Qed.
Lemma current_hideLoading : forall s,
  currentAnalysisData (hideLoading s) = currentAnalysisData s.
Proof. reflexivity. Qed.
Lemma current_showError : forall m s,
  currentAnalysisData (showError m s) = currentAnalysisData s.
Proof. reflexivity. Qed.
Lemma current_showResults : forall d s,
  currentAnalysisData (showResults d s) = currentAnalysisData s.
Proof. reflexivity. Qed.

Definition neither_message : string :=
  "Please upload an image file or enter an image URL".
Definition both_message : string :=
  "Please provide either a file or URL, not both".

(** C1 (amended). [handleFormSubmit]: with neither a file nor a (trimmed,
    non-empty) URL it shows the error "Please upload an image file or enter
    an image URL"; with both it shows "Please provide either a file or URL,
    not both"; in both cases no request is made.  With exactly one of them
    it starts [analyzeImage], whose only effect is one POST carrying that
    file or that URL. *)
Theorem handleFormSubmit_exactly_one : forall s,
  (selected (inputs s) = None -> trim (urlValue (inputs s)) = "" ->
     handleFormSubmit s = showError neither_message s /\
     errorCard (cards (handleFormSubmit s)) = true /\
     errorMessage (texts (handleFormSubmit s)) = neither_message /\
     log (handleFormSubmit s) = log s) /\
  (selected (inputs s) <> None -> trim (urlValue (inputs s)) <> "" ->
     handleFormSubmit s = showError both_message s /\
     errorCard (cards (handleFormSubmit s)) = true /\
     errorMessage (texts (handleFormSubmit s)) = both_message /\
     log (handleFormSubmit s) = log s) /\
  (forall f, selected (inputs s) = Some f -> trim (urlValue (inputs s)) = "" ->
     log (handleFormSubmit s) = (log s ++ [Post (Some f) None])%list) /\
  (selected (inputs s) = None -> trim (urlValue (inputs s)) <> "" ->
     log (handleFormSubmit s) =
     (log s ++ [Post None (Some (trim (urlValue (inputs s))))])%list).
Proof.
  intros s. unfold handleFormSubmit.
  destruct (selected (inputs s)) as [f|] eqn:Hf;
  destruct (String.eqb (trim (urlValue (inputs s))) "") eqn:Eu;
  pose proof (String.eqb_eq (trim (urlValue (inputs s))) "") as Q;
  repeat split; intros; try congruence;
  try (apply Q in Eu; congruence);
  try (rewrite <- Q in *; congruence).
  - unfold analyzeImage_start; cbn. injection H; intros ->.
    rewrite Eu. reflexivity.
  - unfold analyzeImage_start; cbn. rewrite Eu. reflexivity.
Qed.

(** C1 (counterexample). Submitting the freshly loaded page, with neither a
    file nor a URL, shows a message that is not a "please provide" message:
    it does not contain "provide" (nor "Provide"). *)
Lemma handleFormSubmit_neither_message_ce :
  errorMessage (texts (handleFormSubmit initial)) =
    "Please upload an image file or enter an image URL" /\
  includes (errorMessage (texts (handleFormSubmit initial))) "rovide" = false.
Proof. split; reflexivity. Qed.

(** C4. [showResults] renders each field of the response when it is truthy
    (a non-empty string), and the default otherwise: "Unknown" for make,
    model and color.  It shows the results card. *)
Theorem showResults_fields : forall d s,
  let t := texts (showResults d s) in
  (truthy (make d) = true -> carMake t = to_string (make d)) /\
  (truthy (make d) = false -> carMake t = "Unknown") /\
  (truthy (model d) = true -> carModel t = to_string (model d)) /\
  (truthy (model d) = false -> carModel t = "Unknown") /\
  (truthy (color d) = true -> carColor t = to_string (color d)) /\
  (truthy (color d) = false -> carColor t = "Unknown") /\
  (truthy (damage_summary d) = true -> damageSummary t = to_string (damage_summary d)) /\
  (truthy (repair_cost_estimate d) = true ->
     repairCost t = to_string (repair_cost_estimate d)) /\
  (forall mk md cl ds rc,
     make d = JStr mk -> model d = JStr md -> color d = JStr cl ->
     damage_summary d = JStr ds -> repair_cost_estimate d = JStr rc ->
     mk <> "" -> md <> "" -> cl <> "" -> ds <> "" -> rc <> "" ->
     (carMake t, carModel t, carColor t, damageSummary t, repairCost t) =
     (mk, md, cl, ds, rc)) /\
  resultsCard (cards (showResults d s)) = true.
Proof.
  intros d s t. subst t. cbn. unfold or_default.
  repeat split; intros; repeat match goal with H : truthy _ = _ |- _ => rewrite H end;
    try reflexivity.
  repeat match goal with H : _ = JStr _ |- _ => rewrite H end. cbn.
  repeat match goal with H : ?x <> "" |- _ =>
    apply String.eqb_neq in H; rewrite H; clear H end.
  reflexivity.
Qed.

(** C5. [downloadReport] with no stored result shows the error "No analysis
    data available to download" and emits nothing: no file and no request.
    On every path its only possible effect is one [Download]; it never
    makes a request. *)
Theorem downloadReport_without_data : forall generated iso s,
  (currentAnalysisData s = None ->
     downloadReport generated iso s =
       showError "No analysis data available to download" s /\
     errorCard (cards (downloadReport generated iso s)) = true /\
     errorMessage (texts (downloadReport generated iso s)) =
       "No analysis data available to download" /\
     log (downloadReport generated iso s) = log s) /\
  (log (downloadReport generated iso s) = log s \/
   exists fn txt, log (downloadReport generated iso s) =
                  (log s ++ [Download fn txt])%list).
Proof.
  intros generated iso s. unfold downloadReport.
  split.
  - intros H. rewrite H. repeat split.
  - destruct (currentAnalysisData s); [right; eexists _, _; reflexivity | left; reflexivity].
Qed.

(** C10. [showError] always ends in [hideLoading]: after it the loading card
    is hidden, the button is enabled with its idle label, and the error
    card shows the message.  Every settled analysis attempt likewise ends
    with the loading card hidden and the button enabled. *)
Theorem showError_leaves_loading : forall m s,
  loadingCard (cards (showError m s)) = false /\
  btnDisabled (showError m s) = false /\
  btnLabel (showError m s) = "Analyze Damage" /\
  errorCard (cards (showError m s)) = true /\
  errorMessage (texts (showError m s)) = m /\
  (forall o, loadingCard (cards (analyzeImage_finish o s)) = false /\
             btnDisabled (analyzeImage_finish o s) = false /\
             btnLabel (analyzeImage_finish o s) = "Analyze Damage").
Proof.
  intros m s. repeat split; reflexivity.
Qed.

(** A body with only the given fields, the others absent. *)
Definition body_detail (m : string) : Body :=
  mkBody JUndefined JUndefined JUndefined JUndefined JUndefined JUndefined
         JUndefined (JStr m).

(** The file names and texts of the downloads in a log. *)
Fixpoint downloads (l : list effect) : list (string * string) :=
  match l with
  | [] => []
  | Download fn txt :: rest => (fn, txt) :: downloads rest
  | Post _ _ :: rest => downloads rest
  end.

(** The POSTs in a log. *)
Fixpoint posts (l : list effect) : list (option File * option string) :=
  match l with
  | [] => []
  | Post f u :: rest => (f, u) :: posts rest
  | Download _ _ :: rest => posts rest
  end.

(** C2 (code_bug). A URL submission whose response is a 400 with the
    detail "Failed to fetch image from URL": the error card is shown, but
    the message displayed is the connectivity message, not the detail,
    because the [catch] block matches "fetch" in any error message. *)
Theorem analyzeImage_fetch_in_detail :
  let s := run [UrlInput "https://example.com/car.jpg"; Submit;
                FetchDone (FetchResponse false
                  (PJson (body_detail "Failed to fetch image from URL")))]
               initial in
  posts (log s) = [(None, Some "https://example.com/car.jpg")] /\
  errorCard (cards s) = true /\ resultsCard (cards s) = false /\
  errorMessage (texts s) = connection_message /\
  errorMessage (texts s) <> "Failed to fetch image from URL".
Proof. vm_compute. repeat split; discriminate. Qed.

Definition body_no_make : Body :=
  mkBody (JBool true) JUndefined (JStr "Civic") (JStr "Red")
         (JStr "Dented front bumper") (JStr "$500 - $900") JUndefined JUndefined.

(** C3 (code_bug). A successful response without [make]: the results view
    shows "Unknown", but the downloaded report writes the raw field, so it
    reads "Make: undefined" and does not contain "Unknown" at all. *)
Theorem downloadReport_absent_make :
  let s := run [UrlInput "https://example.com/car.jpg"; Submit;
                FetchDone (FetchResponse true (PJson body_no_make));
                DownloadClick "10/19/2026, 12:00:00 PM" "2026-10-19T12:00:00.000Z"]
               initial in
  carMake (texts s) = "Unknown" /\
  map fst (downloads (log s)) = ["ClaimCompass_Report_2026-10-19T12-00-00.txt"] /\
  map (fun p => includes (snd p) "Unknown") (downloads (log s)) = [false] /\
  map (fun p => includes (snd p) "Make: undefined") (downloads (log s)) = [true].
Proof. vm_compute. repeat split. Qed.

(** C6 (code_bug). Choosing a PDF through the file input shows "Please
    select an image file", but the file stays selected, and submitting then
    POSTs it to the analysis endpoint. *)
Theorem non_image_file_is_posted :
  let pdf := mkFile "claim.pdf" "application/pdf" in
  let s1 := run [FileChange [pdf]] initial in
  let s2 := run [FileChange [pdf]; Submit] initial in
  errorMessage (texts s1) = "Please select an image file" /\
  selected (inputs s1) = Some pdf /\
  posts (log s2) = [(Some pdf, None)].
Proof. vm_compute. repeat split. Qed.


(** ** Invariants over event sequences *)

(** Unfold one page event and split on every branch of its handler. *)
Ltac split_handler :=
  cbv [step handleFileSelect handleDrop handleUrlInput clearFileWhenUrlEntered
       readerOnload handleFormSubmit analyzeImage_start analyzeImage_finish
       resetForm downloadReport previewFile clearFile clearUrl showError
       showResults showLoading hideLoading set_cards set_button set_inputs
       set_texts set_current emit];
  cbn [cards inputs texts currentAnalysisData log btnDisabled btnLabel
       welcomeCard loadingCard resultsCard errorCard selected urlValue
       filePreview urlPreview readerPending hd_error];
  repeat match goal with
  | |- context [match ?x with _ => _ end] =>
      lazymatch x with
      | context [match _ with _ => _ end] => fail
      | _ => destruct x eqn:?
      end
  end.

(** The current result as the source's assignments determine it: set by a
    settled request whose [try] block reached [currentAnalysisData = data],
    cleared by [resetForm], kept by every other event. *)
Definition track (cur : option Body) (e : event) : option Body :=
  match e with
  | FetchDone o => match attempt o with inl d => Some d | inr _ => cur end
  | Reset => None
  | _ => cur
  end.

Lemma current_step : forall e s,
  currentAnalysisData (step e s) = track (currentAnalysisData s) e.
Proof.
  intros e [c bd bl i t cur l]; destruct e; split_handler; cbn [track];
    repeat match goal with H : attempt _ = _ |- _ => rewrite H end;
    reflexivity.
Qed.

Lemma attempt_success : forall o d,
  attempt o = inl d <-> o = FetchResponse true (PJson d) /\ truthy (success d) = true.
Proof.
  intros o d; split.
  - destruct o as [m|[|] [b|m]]; cbn; try discriminate.
    destruct (truthy (success b)) eqn:E; intros H; [injection H; intros ->; auto | discriminate].
  - intros [-> H]; cbn; rewrite H; reflexivity.
Qed.

(** C9. [currentAnalysisData] changes only at a settled request whose
    response is ok with a truthy [success] flag (it then holds that body) or
    at [resetForm] (it becomes null); a failed attempt (non-2xx, [success]
    false, transport failure, body not JSON) leaves it unchanged.  Hence
    after any sequence of events it is the body of the latest successful
    response not followed by a reset, and [downloadReport] serializes that
    body. *)
Theorem currentAnalysisData_last_success :
  (forall e s,
     currentAnalysisData (step e s) = currentAnalysisData s \/
     (exists d, e = FetchDone (FetchResponse true (PJson d)) /\
                truthy (success d) = true /\
                currentAnalysisData (step e s) = Some d) \/
     (e = Reset /\ currentAnalysisData (step e s) = None)) /\
  (forall o s, (forall d, attempt o <> inl d) ->
     currentAnalysisData (analyzeImage_finish o s) = currentAnalysisData s) /\
  (forall es s,
     currentAnalysisData (run es s) = fold_left track es (currentAnalysisData s)) /\
  (forall generated iso s d, currentAnalysisData s = Some d ->
     log (downloadReport generated iso s) =
     (log s ++ [Download (reportFilename iso) (reportText generated d)])%list).
Proof.
  split; [|split; [|split]].
  - intros e s. rewrite current_step. destruct e; cbn; auto.
    destruct (attempt o) as [d|m] eqn:E; auto.
    right; left. apply attempt_success in E. destruct E as [-> H]. eauto.
  - intros o s H. change (currentAnalysisData (step (FetchDone o) s) =
                          currentAnalysisData s).
    rewrite current_step; cbn. destruct (attempt o) eqn:E; [|reflexivity].
    exfalso; eapply H; eauto.
  - intros es; induction es as [|e es IH]; intros s; [reflexivity|].
    cbn. rewrite <- current_step. apply IH.
  - intros generated iso s d H. unfold downloadReport; rewrite H; reflexivity.
Qed.

(** Both a selected file and a non-empty (trimmed) URL are present: the
    condition [handleFormSubmit] rejects with "not both". *)
Definition both_present (s : State) : bool :=
  match selected (inputs s) with
  | Some _ => negb (String.eqb (trim (urlValue (inputs s))) "")
  | None => false
  end.

Lemma both_present_step : forall e s,
  both_present s = false -> both_present (step e s) = false.
Proof.
  intros e [c bd bl [sel u fp up rp] t cur l] H; unfold both_present in *;
    destruct e; split_handler; cbn in *; subst; cbn in *;
    try reflexivity; try assumption;
    try congruence;
    repeat match goal with H : _ = _ |- _ => rewrite H end; reflexivity.
Qed.

(** C7. Selecting a file (input [change]) or dropping an image clears the
    URL value and hides the URL preview; typing a URL whose trimmed value is
    non-empty clears the file input and hides the file preview.  Hence no
    sequence of page events leads from a state without both inputs present
    (in particular from the loaded page) to one with a selected file and a
    non-empty URL. *)
Theorem inputs_mutually_exclusive :
  (forall files f s, hd_error files = Some f ->
     urlValue (inputs (handleFileSelect files s)) = "" /\
     urlPreview (inputs (handleFileSelect files s)) = false /\
     selected (inputs (handleFileSelect files s)) = Some f) /\
  (forall files f s, hd_error files = Some f ->
     startsWith (file_type f) "image/" = true ->
     urlValue (inputs (handleDrop files s)) = "" /\
     urlPreview (inputs (handleDrop files s)) = false /\
     selected (inputs (handleDrop files s)) = Some f) /\
  (forall v s, trim v <> "" ->
     selected (inputs (handleUrlInput v s)) = None /\
     filePreview (inputs (handleUrlInput v s)) = false /\
     urlValue (inputs (handleUrlInput v s)) = v) /\
  (forall es s, both_present s = false -> both_present (run es s) = false) /\
  (forall es, both_present (run es initial) = false).
Proof.
  assert (Hrun : forall es s, both_present s = false -> both_present (run es s) = false).
  { intros es; induction es as [|e es IH]; intros s H; [exact H|].
    cbn. apply IH, both_present_step, H. }
  split; [|split; [|split; [|split]]].
  - intros files f s H. unfold handleFileSelect. rewrite H.
    unfold previewFile. destruct (negb _); reflexivity || (repeat split).
  - intros [|f' rest] f s H Himg; [discriminate|]. cbn in H. injection H; intros ->.
    unfold handleDrop. rewrite Himg. unfold previewFile.
    rewrite Himg. repeat split.
  - intros v s H. unfold handleUrlInput, clearFileWhenUrlEntered. cbn.
    apply String.eqb_neq in H. unfold trim in H. rewrite H. repeat split.
  - exact Hrun.
  - intros es. apply Hrun. reflexivity.
Qed.


(** ** Further properties of the controller *)

(** A settled analysis attempt ends in the results view exactly when the
    response was ok with a truthy [success] flag, and in the error view
    otherwise; in both cases the loading card is hidden and the button is
    enabled again. *)
Theorem analyzeImage_finish_view : forall o s,
  (resultsCard (cards (analyzeImage_finish o s)) = true <->
   exists d, o = FetchResponse true (PJson d) /\ truthy (success d) = true) /\
  errorCard (cards (analyzeImage_finish o s)) =
    negb (resultsCard (cards (analyzeImage_finish o s))) /\
  welcomeCard (cards (analyzeImage_finish o s)) = false /\
  loadingCard (cards (analyzeImage_finish o s)) = false /\
  btnDisabled (analyzeImage_finish o s) = false.
Proof.
  intros o s.
  assert (Hr : resultsCard (cards (analyzeImage_finish o s)) =
               match attempt o with inl _ => true | inr _ => false end).
  { unfold analyzeImage_finish. destruct (attempt o); [reflexivity|].
    destruct (includes _ _); [reflexivity|]. destruct (String.eqb _ _); reflexivity. }
  repeat split.
  - rewrite Hr. destruct (attempt o) as [d|m] eqn:E; [|discriminate].
    intros _. exists d. apply attempt_success, E.
  - intros [d Hd]. apply attempt_success in Hd. rewrite Hr, Hd. reflexivity.
  - rewrite Hr. unfold analyzeImage_finish. destruct (attempt o); [reflexivity|].
    destruct (includes _ _); [reflexivity|]. destruct (String.eqb _ _); reflexivity.
  - unfold analyzeImage_finish. destruct (attempt o); [reflexivity|].
    destruct (includes _ _); [reflexivity|]. destruct (String.eqb _ _); reflexivity.
Qed.

(** A request the client sends: exactly one of a file and a non-empty
    image URL. *)
Definition post_ok (e : effect) : Prop :=
  match e with
  | Post (Some _) None => True
  | Post None (Some u) => u <> ""
  | Post _ _ => False
  | Download _ _ => True
  end.

Lemma post_ok_step : forall e s,
  Forall post_ok (log s) -> Forall post_ok (log (step e s)).
Proof.
  intros e [c bd bl i t cur l] H; cbn in H.
  destruct e; split_handler; cbn in *; try assumption;
    apply Forall_app; split; try assumption; constructor; cbn; auto;
    try (apply String.eqb_neq; assumption); try discriminate.
Qed.

(** Whatever the sequence of page events, every POST the page sends carries
    exactly one of a file and a non-empty image URL: the client never sends
    both, nor neither. *)
Theorem posts_exactly_one : forall es,
  Forall post_ok (log (run es initial)).
Proof.
  assert (H : forall es s, Forall post_ok (log s) -> Forall post_ok (log (run es s))).
  { intros es; induction es as [|e es IH]; intros s Hs; [exact Hs|].
    cbn. apply IH, post_ok_step, Hs. }
  intros es. apply H. constructor.
Qed.

(** *** The report text *)

Lemma str_app_assoc : forall x y z : string, (x ++ y) ++ z = x ++ (y ++ z).
Proof. induction x as [|a x IH]; intros; cbn; [|rewrite IH]; reflexivity. Qed.

Lemma trimEnd_app : forall x y, trimEnd y <> "" -> trimEnd (x ++ y) = x ++ trimEnd y.
Proof.
  induction x as [|a x IH]; intros y H; [reflexivity|].
  cbn. rewrite IH by exact H.
  destruct (String.eqb_spec (x ++ trimEnd y) "") as [E|E].
  - destruct x; [cbn in E; contradiction|discriminate].
  - rewrite andb_false_r. reflexivity.
Qed.

Lemma trimEnd_app_ne : forall x y, trimEnd y <> "" -> trimEnd (x ++ y) <> "".
Proof.
  intros x y H. rewrite trimEnd_app by exact H. destruct x; [exact H|discriminate].
Qed.

Lemma trimStart_nl : forall c x y, is_ws c = false ->
  trimStart (String "010" (String c x) ++ y) = String c x ++ y.
Proof. intros c x y H. cbn. rewrite H. reflexivity. Qed.

Lemma prefix_app : forall x q, String.prefix x (x ++ q) = true.
Proof.
  induction x as [|a x IH]; intros q; [destruct q; reflexivity|].
  cbn. destruct (ascii_dec a a) as [_|N]; [apply IH|contradiction].
Qed.

Lemma includes_prefix : forall x q, includes (x ++ q) x = true.
Proof.
  intros x q. pose proof (prefix_app x q) as H.
  destruct (x ++ q) as [|b r];
    [change (String.prefix x "" || false = true)
    |change (String.prefix x (String b r) || includes r x = true)];
    rewrite H; reflexivity.
Qed.

Lemma includes_app_r : forall p y x, includes y x = true -> includes (p ++ y) x = true.
Proof.
  induction p as [|a p IH]; intros y x H; [exact H|].
  cbn. rewrite IH by exact H. apply orb_true_r.
Qed.

(** The template of [downloadReport] without the line break that opens it
    and the indentation that closes it. *)
Definition reportBody (generated : string) (d : Body) : string :=
  "CLAIMCOMPASS DAMAGE ANALYSIS REPORT
Generated: " ++ generated ++ "

VEHICLE INFORMATION:
Make: " ++ to_string (make d) ++ "
Model: " ++ to_string (model d) ++ "
Color: " ++ to_string (color d) ++ "

DAMAGE ASSESSMENT:
" ++ to_string (damage_summary d) ++ "

ESTIMATED REPAIR COST:
" ++ to_string (repair_cost_estimate d) ++ "

ANALYSIS METHOD:
" ++ analysis_method ++ "

DISCLAIMER:
" ++ disclaimer ++ "

---
Report generated by ClaimCompass
AI-Powered Insurance Technology Demo".

Ltac trimEnd_ne := repeat apply trimEnd_app_ne; vm_compute; discriminate.

(** The [.trim()] of [downloadReport] removes only the template's own
    leading line break and trailing indentation: whatever the field values
    (empty, white space, absent), the report is the template with every
    field written in full on its labelled line, so it contains the raw make,
    model, color, damage summary and cost estimate and the disclaimer. *)
Theorem reportText_fields : forall generated d,
  reportText generated d = reportBody generated d /\
  includes (reportText generated d) (to_string (make d)) = true /\
  includes (reportText generated d) (to_string (model d)) = true /\
  includes (reportText generated d) (to_string (color d)) = true /\
  includes (reportText generated d) (to_string (damage_summary d)) = true /\
  includes (reportText generated d) (to_string (repair_cost_estimate d)) = true /\
  includes (reportText generated d) disclaimer = true.
Proof.
  intros generated d.
  assert (E : reportText generated d = reportBody generated d).
  { unfold reportText, trim, reportTemplate.
    rewrite trimStart_nl by reflexivity.
    repeat (rewrite trimEnd_app by trimEnd_ne).
    reflexivity. }
  rewrite E. unfold reportBody.
  repeat split.
  all: repeat (first [apply includes_prefix | apply includes_app_r]).
Qed.

(** *** The report file name *)

Lemma prefix_nil : forall r, String.prefix "" r = true.
Proof. destruct r; reflexivity. Qed.

Lemma includes_app_char : forall c p y,
  includes (p ++ y) (String c "") =
  includes p (String c "") || includes y (String c "").
Proof.
  intros c; induction p as [|a p IH]; intros y; [reflexivity|].
  change (String.prefix (String c "") (String a (p ++ y)) || includes (p ++ y) (String c "")
          = (String.prefix (String c "") (String a p) || includes p (String c ""))
            || includes y (String c "")).
  cbn [String.prefix]. destruct (ascii_dec c a); rewrite ?prefix_nil, IH;
    [reflexivity|cbn; reflexivity].
Qed.

Lemma replace_colons_no_colon : forall s, includes (replace_colons s) ":" = false.
Proof.
  induction s as [|a s IH]; [reflexivity|].
  change (String.prefix ":" (String (if Ascii.eqb a ":" then "-" else a)%char
                                    (replace_colons s))
          || includes (replace_colons s) ":" = false).
  rewrite IH, orb_false_r. cbn [String.prefix].
  destruct (Ascii.eqb_spec a ":") as [->|N]; [reflexivity|].
  destruct (ascii_dec ":" a) as [E|_]; [congruence|reflexivity].
Qed.

Lemma str_length_app : forall x y,
  String.length (x ++ y) = String.length x + String.length y.
Proof. induction x; intros; cbn; congruence. Qed.

Lemma replace_colons_length : forall s, String.length (replace_colons s) = String.length s.
Proof. induction s; cbn; congruence. Qed.

Lemma substring_length : forall n s, String.length (substring 0 n s) <= n.
Proof.
  induction n as [|n IH]; intros [|a s]; cbn; try lia.
  specialize (IH s). lia.
Qed.

(** The name of the downloaded report contains no colon (the ISO
    timestamp's colons are replaced by dashes), and it is at most 43
    characters long: the fixed prefix, at most 19 characters of the
    timestamp, and ".txt". *)
Theorem reportFilename_safe : forall iso,
  includes (reportFilename iso) ":" = false /\
  String.length (reportFilename iso) <= 43.
Proof.
  intros iso. unfold reportFilename. split.
  - rewrite !includes_app_char, replace_colons_no_colon. reflexivity.
  - rewrite !str_length_app, replace_colons_length.
    pose proof (substring_length 19 iso). cbn [String.length]. lia.
Qed.

(** *** Input handlers *)

(** A drop with no file changes nothing; a drop whose first file is not an
    image only shows "Please drop an image file": the selected file, the
    URL and the previews stay as they were, and nothing is sent. *)
Theorem handleDrop_rejects_non_image :
  (forall s, handleDrop [] s = s) /\
  (forall f rest s, startsWith (file_type f) "image/" = false ->
     inputs (handleDrop (f :: rest) s) = inputs s /\
     errorMessage (texts (handleDrop (f :: rest) s)) = "Please drop an image file" /\
     errorCard (cards (handleDrop (f :: rest) s)) = true /\
     log (handleDrop (f :: rest) s) = log s).
Proof.
  split; [reflexivity|].
  intros f rest s H. unfold handleDrop. rewrite H. repeat split.
Qed.

(** After [resetForm] both inputs are empty and no result is held, so a
    submission shows the "Please upload an image file or enter an image
    URL" error and a download shows "No analysis data available to
    download"; neither sends a request nor creates a file. *)
Theorem resetForm_then_submit_or_download : forall generated iso s,
  let r := resetForm s in
  selected (inputs r) = None /\ urlValue (inputs r) = "" /\
  currentAnalysisData r = None /\ welcomeCard (cards r) = true /\
  errorMessage (texts (handleFormSubmit r)) = neither_message /\
  log (handleFormSubmit r) = log s /\
  errorMessage (texts (downloadReport generated iso r)) =
    "No analysis data available to download" /\
  log (downloadReport generated iso r) = log s.
Proof. intros; repeat split. Qed.

(** The [FileReader] started for a chosen image is not cancelled when a URL
    is typed: its [onload] shows the file preview again although the file
    input has been cleared and the URL kept. *)
Theorem reader_onload_after_url : forall img rest v s,
  startsWith (file_type img) "image/" = true -> trim v <> "" ->
  let s' := readerOnload (handleUrlInput v (handleFileSelect (img :: rest) s)) in
  filePreview (inputs s') = true /\ selected (inputs s') = None /\
  urlValue (inputs s') = v.
Proof.
  intros img rest v s Himg Hv. apply String.eqb_neq in Hv.
  unfold handleFileSelect, previewFile. cbn [hd_error]. rewrite Himg.
  unfold handleUrlInput, clearFileWhenUrlEntered. cbn.
  unfold trim in Hv. rewrite Hv. repeat split.
Qed.

(** [previewUrl] (defined in script.js, bound to no event there): a blank
    URL shows "Please enter an image URL"; otherwise it clears the file
    input and hands the URL to the preview image, whose [onload] shows the
    URL preview and whose [onerror] shows an error and hides it. *)
Definition previewUrl (s : State) : State :=
  let url := trim (urlValue (inputs s)) in
  if String.eqb url "" then showError "Please enter an image URL" s
  else clearFile s.

Definition urlPreviewImage_onload (s : State) : State :=
  let i := inputs s in
  set_inputs (mkInputs (selected i) (urlValue i) (filePreview i) true (readerPending i)) s.

Definition urlPreviewImage_onerror (s : State) : State :=
  let s := showError "Unable to load image from URL. Please check the URL and try again." s in
  let i := inputs s in
  set_inputs (mkInputs (selected i) (urlValue i) (filePreview i) false (readerPending i)) s.

(** [previewUrl] on a blank URL keeps the selected file and reports the
    error; on a non-blank URL it clears the file, so a submission that
    follows sends exactly that (trimmed) URL.  A failing preview load hides
    the URL preview but keeps the URL, which a submission still sends. *)
Theorem previewUrl_then_submit : forall s,
  (trim (urlValue (inputs s)) = "" ->
     selected (inputs (previewUrl s)) = selected (inputs s) /\
     errorMessage (texts (previewUrl s)) = "Please enter an image URL" /\
     log (previewUrl s) = log s) /\
  (trim (urlValue (inputs s)) <> "" ->
     selected (inputs (previewUrl s)) = None /\
     log (handleFormSubmit (previewUrl s)) =
       (log s ++ [Post None (Some (trim (urlValue (inputs s))))])%list /\
     urlPreview (inputs (urlPreviewImage_onerror (previewUrl s))) = false /\
     log (handleFormSubmit (urlPreviewImage_onerror (previewUrl s))) =
       (log s ++ [Post None (Some (trim (urlValue (inputs s))))])%list).
Proof.
  intros s. unfold previewUrl. split.
  - intros H. rewrite H. repeat split.
  - intros H. apply String.eqb_neq in H. rewrite H.
    unfold handleFormSubmit, analyzeImage_start. cbn. unfold trim in H. rewrite H.
    repeat split.
Qed.

(** ** The second controller (unnamed/part_000)

    The same page wired to three sections (loading, results, error) and no
    welcome card.  The state type is shared: [loadingCard], [resultsCard]
    and [errorCard] stand for [loadingSection], [resultsSection] and
    [errorSection]; [welcomeCard] is not touched by this script. *)
Module ScaleVariant.

(** The double quote character, for the attribute values of the button's
    [innerHTML]. *)
Definition q : string := String (ascii_of_nat 34) EmptyString.

Definition loading_label : string :=
  "
        <div class=" ++ q ++ "loading-spinner" ++ q ++ " style=" ++ q ++
  "width: 16px; height: 16px; margin-right: 8px;" ++ q ++ "></div>
        <span class=" ++ q ++ "btn-text" ++ q ++ ">Analyzing with Scale AI...</span>
    ".

Definition idle_label : string :=
  "
        <span class=" ++ q ++ "btn-text" ++ q ++ ">Analyze with Scale AI</span>
        <svg class=" ++ q ++ "btn-arrow" ++ q ++ " width=" ++ q ++ "16" ++ q ++
  " height=" ++ q ++ "16" ++ q ++ " viewBox=" ++ q ++ "0 0 16 16" ++ q ++
  " fill=" ++ q ++ "currentColor" ++ q ++ ">
            <path d=" ++ q ++
  "M3.204 11L6.5 7.704 3.204 4.408l.592-.592L8 7.716l.592.592-4.796 4.796L3.204 11z" ++
  q ++ "/>
        </svg>
    ".

Definition showLoading (s : State) : State :=
  let c := cards s in
  set_button true loading_label (set_cards (mkCards (welcomeCard c) true false false) s).

Definition hideLoading (s : State) : State :=
  let c := cards s in
  set_button false idle_label
    (set_cards (mkCards (welcomeCard c) false (resultsCard c) (errorCard c)) s).

(** [showResults] here also hides the loading section. *)
Definition showResults (data : Body) (s : State) : State :=
  let t := texts s in
  let c := cards s in
  set_cards (mkCards (welcomeCard c) false true false)
    (set_texts
       (mkTexts (or_default (make data) "Unknown")
                (or_default (model data) "Unknown")
                (or_default (color data) "Unknown")
                (or_default (damage_summary data) "No damage assessment available")
                (or_default (repair_cost_estimate data) "Unable to estimate")
                (errorMessage t)) s).

Definition showError (message : string) (s : State) : State :=
  let t := texts s in
  let c := cards s in
  hideLoading
    (set_cards (mkCards (welcomeCard c) false false true)
       (set_texts (mkTexts (carMake t) (carModel t) (carColor t)
                           (damageSummary t) (repairCost t) message) s)).

Definition resetForm (s : State) : State :=
  let s := clearUrl (clearFile s) in
  let s := set_current None s in
  let c := cards s in
  set_button false idle_label
    (set_cards (mkCards (welcomeCard c) false false false) s).

Definition attempt (o : fetch_outcome) : Body + string :=
  match o with
  | FetchFailed m => inr m
  | FetchResponse false (PJson errorData) =>
      inr (or_default (detail errorData) "Analysis failed")
  | FetchResponse _ (PNotJson m) => inr m
  | FetchResponse true (PJson data) =>
      if truthy (success data) then inl data
      else inr (or_default (error data) "Analysis failed - please try again")
  end.

Definition analyzeImage_finish (o : fetch_outcome) (s : State) : State :=
  hideLoading
    (match attempt o with
     | inl data => showResults data (set_current (Some data) s)
     | inr message =>
         if includes message "fetch" then
           showError "Unable to connect to Scale AI services. Please check your connection and try again." s
         else if String.eqb message "" then
           showError "Failed to analyze image. Please try again." s
         else showError message s
     end).

(** At most one of the three sections displayed. *)
Definition sections_exclusive (c : Cards) : bool :=
  Nat.leb (length (filter (fun b : bool => b)
             [loadingCard c; resultsCard c; errorCard c])) 1.

(** In this controller every view transition leaves at most one of the
    loading, results and error sections displayed, from any state:
    [showLoading], [showResults], [showError], [resetForm] and a settled
    analysis attempt each set all three; [hideLoading] keeps the property. *)
Theorem sections_exclusive_always : forall s,
  sections_exclusive (cards (showLoading s)) = true /\
  (forall d, sections_exclusive (cards (showResults d s)) = true) /\
  (forall m, sections_exclusive (cards (showError m s)) = true) /\
  sections_exclusive (cards (resetForm s)) = true /\
  (forall o, sections_exclusive (cards (analyzeImage_finish o s)) = true) /\
  (sections_exclusive (cards s) = true ->
     sections_exclusive (cards (hideLoading s)) = true).
Proof.
  intros [[w ld r er] bd bl i t cur l].
  repeat split.
  - intros o. unfold analyzeImage_finish. destruct (attempt o); [reflexivity|].
    destruct (includes _ _); [reflexivity|]. destruct (String.eqb _ _); reflexivity.
  - destruct ld, r, er; cbn; auto.
Qed.

End ScaleVariant.

Lemma reader_onload_after_url_witness :
  filePreview (inputs (readerOnload
    (handleUrlInput "https://example.com/car.jpg"
       (handleFileSelect [mkFile "car.png" "image/png"] initial)))) = true.
Proof.
  apply (proj1 (reader_onload_after_url (mkFile "car.png" "image/png") []
                  "https://example.com/car.jpg" initial eq_refl
                  ltac:(vm_compute; discriminate))).
Defined.
